(** * Factory Method example (design-patterns/creational/factory.ts)

    A shallow embedding of the TypeScript sample and the properties its
    specification states about it.

    Modelling conventions.
    - A TypeScript [string] is a [String.string]; a template literal
      [`text ${e}`] whose hole holds a string is the concatenation
      ["text" ++ e].
    - The classes of the file carry no fields, so an object is its table of
      methods.
    - The program as it runs comes first: its two products and two creators,
      whose methods only compute strings and objects, with [console.log] as
      the only effect of the client and of the application.  Standard output
      is the sequence of strings handed to [console.log]; [render] turns it
      into the text the terminal receives and [lines] cuts such a text back
      into lines.
    - Module [Obj] then opens the classes as TypeScript leaves them: a
      subclass may override [someOperation], and a method may print, throw or
      use the state of the program.  Statements about every creator are made
      there; the two models agree on the creators of the file. *)

From Stdlib Require Import String Ascii List Bool Arith Lia.
Import ListNotations.

#[local] Open Scope list_scope.
#[local] Open Scope string_scope.

(** ** Products *)

(** [interface Transport { operation(): string; }] *)
Record Transport : Type := mkTransport {
  operation : unit -> string
}.

(** [class Truck implements Transport]: the object [new Truck()]. *)
Definition Truck : Transport :=
  {| operation := fun _ => "{Transport by land}" |}.

(** [class Ship implements Transport]: the object [new Ship()]. *)
Definition Ship : Transport :=
  {| operation := fun _ => "{Transport by sea}" |}.

(** ** Creators *)

(** [abstract class TransportCreator], as the creators of the file extend
    it: [factoryMethod] is abstract, so each of them supplies it, and they
    declare nothing else.  A subclass that overrides [someOperation] is an
    [Obj.TransportCreator] below. *)
Record TransportCreator : Type := mkTransportCreator {
  factoryMethod : unit -> Transport
}.

(** The one method the abstract class implements, as the creators of the
    file inherit it. *)
Definition someOperation (this : TransportCreator) (_ : unit) : string :=
  let transport := factoryMethod this tt in
  "TransportCreator: The same creator's code has just worked with "
    ++ operation transport tt.

(** [class TruckCreator extends TransportCreator]: [new TruckCreator()]. *)
Definition TruckCreator : TransportCreator :=
  {| factoryMethod := fun _ => Truck |}.

(** [class ShipCreator extends TransportCreator]: [new ShipCreator()]. *)
Definition ShipCreator : TransportCreator :=
  {| factoryMethod := fun _ => Ship |}.

(** ** The specification's [describe]

    The specification names the behaviour [describe(creatorVariant)], with
    the variant taken from the closed set {Truck, Ship}.  The source has no
    function of that name: the application builds the creator of the chosen
    variant and calls [someOperation] on it.  [describe] below is that
    composition, following the specification's wording. *)

Inductive CreatorVariant : Type :=
| TruckVariant
| ShipVariant.

Definition creatorOf (v : CreatorVariant) : TransportCreator :=
  match v with
  | TruckVariant => TruckCreator
  | ShipVariant => ShipCreator
  end.

Definition productOf (v : CreatorVariant) : Transport :=
  match v with
  | TruckVariant => Truck
  | ShipVariant => Ship
  end.

Definition describe (v : CreatorVariant) : string :=
  someOperation (creatorOf v) tt.

(** The descriptive text the specification attaches to each variant. *)
Definition variantText (v : CreatorVariant) : string :=
  match v with
  | TruckVariant => "Transport by land"
  | ShipVariant => "Transport by sea"
  end.

Definition otherVariant (v : CreatorVariant) : CreatorVariant :=
  match v with
  | TruckVariant => ShipVariant
  | ShipVariant => TruckVariant
  end.


(** ** Standard output *)

(** The strings handed to [console.log], oldest first. *)
Definition Stdout : Type := list string.

(** A computation that may print: it receives the output so far and returns
    its value with the output extended. *)
Definition Console (A : Type) : Type := Stdout -> A * Stdout.

Definition ret {A : Type} (a : A) : Console A :=
  fun out => (a, out).

Definition bind {A B : Type} (c : Console A) (k : A -> Console B) : Console B :=
  fun out => let (a, out') := c out in k a out'.

Notation "x <- c ;; k" := (bind c (fun x => k))
  (at level 61, c at next level, right associativity).
Notation "c ;; k" := (bind c (fun _ => k))
  (at level 61, right associativity).

(** [console.log(s)] *)
Definition console_log (s : string) : Console unit :=
  fun out => (tt, (out ++ [s])%list).

(** What a computation prints when it starts on an empty output. *)
Definition printed {A : Type} (c : Console A) : Stdout :=
  snd (c []).

(** The line feed [console.log] puts after its argument. *)
Definition LF : ascii := ascii_of_nat 10.

(** The text the terminal receives. *)
Fixpoint render (out : Stdout) : string :=
  match out with
  | [] => ""
  | s :: out' => s ++ String LF (render out')
  end.

(** The lines of a text; a line ends at a line feed or at the end of the
    text. *)
Fixpoint lines (text : string) : list string :=
  match text with
  | "" => []
  | String c text' =>
      if Ascii.eqb c LF then "" :: lines text'
      else match lines text' with
           | [] => [String c ""]
           | l :: ls => String c l :: ls
           end
  end.

Fixpoint has_LF (s : string) : bool :=
  match s with
  | "" => false
  | String c s' => Ascii.eqb c LF || has_LF s'
  end.

(** ** Substrings ([String.prototype.includes]) *)

Fixpoint startsWith (s p : string) {struct p} : bool :=
  match p, s with
  | "", _ => true
  | String _ _, "" => false
  | String a p', String b s' => Ascii.eqb a b && startsWith s' p'
  end.

Fixpoint includes (s p : string) : bool :=
  startsWith s p ||
  match s with
  | "" => false
  | String _ s' => includes s' p
  end.

(** [p] occurs in [s]. *)
Definition Substring (p s : string) : Prop :=
  exists pre post, s = pre ++ p ++ post.

(** ** The client and the application *)

Definition client_line : string :=
  "Client: I'm not aware of the creator's class, but it still works.".

(** [function clientCode(creator: TransportCreator)], on a creator that
    inherits [someOperation]; [Obj.clientCode] is the call through the
    object. *)
Definition clientCode (creator : TransportCreator) : Console unit :=
  console_log
    "Client: I'm not aware of the creator's class, but it still works." ;;
  console_log (someOperation creator tt).

(** The statements at the top level of the file, in order. *)
Definition main : Console unit :=
  console_log "App: Launched with the TruckCreator." ;;
  clientCode TruckCreator ;;
  console_log "" ;;
  console_log "App: Launched with the ShipCreator." ;;
  clientCode ShipCreator.

(** The two announcements of the application. *)
Definition truck_announcement : string := "App: Launched with the TruckCreator.".
Definition ship_announcement : string := "App: Launched with the ShipCreator.".

(** ** Objects, dispatch and effects

    The definitions above follow the program as it runs: its two creators
    inherit [someOperation], print nothing, throw nothing and keep no state.
    The classes of the file are open, though: [someOperation] is public and
    can be overridden, and a method of a further subclass may print, throw
    or use state of its own.  Module [Obj] models that: a method is a
    computation over the state of the program, a creator carries its own
    [someOperation] when its class declares one, and a call goes through the
    object.  A method that never returns is outside the model. *)

Module Obj.

(** How a call ends: [return v] or [throw e]. *)
Inductive Completion (Exn A : Type) : Type :=
| Returned (a : A)
| Thrown (e : Exn).
Arguments Returned {Exn A} a.
Arguments Thrown {Exn A} e.

(** A computation: from the state before, how it ends, the state after and
    the strings it handed to [console.log], oldest first. *)
Definition Eff (Store Exn A : Type) : Type :=
  Store -> Completion Exn A * Store * list string.

Section Effects.
Context {Store Exn : Type}.

Definition ret {A : Type} (a : A) : Eff Store Exn A :=
  fun st => (Returned a, st, []).

(** [throw e] *)
Definition throw {A : Type} (e : Exn) : Eff Store Exn A :=
  fun st => (Thrown e, st, []).

(** Sequencing: an exception ends the sequence, what was printed stays. *)
Definition bind {A B : Type} (c : Eff Store Exn A) (k : A -> Eff Store Exn B) :
  Eff Store Exn B :=
  fun st =>
    match c st with
    | (Returned a, st1, out1) =>
        match k a st1 with
        | (r, st2, out2) => (r, st2, (out1 ++ out2)%list)
        end
    | (Thrown e, st1, out1) => (Thrown e, st1, out1)
    end.

(** [console.log(s)] *)
Definition console_log (s : string) : Eff Store Exn unit :=
  fun st => (Returned tt, st, [s]).

End Effects.

Declare Scope eff_scope.
Delimit Scope eff_scope with eff.
Notation "x <- c ;; k" := (bind c (fun x => k))
  (at level 61, c at next level, right associativity) : eff_scope.
Notation "c ;; k" := (bind c (fun _ => k))
  (at level 61, right associativity) : eff_scope.
#[local] Open Scope eff_scope.

(** [interface Transport { operation(): string; }] *)
Record Transport (Store Exn : Type) : Type := {
  operation : Eff Store Exn string
}.
Arguments operation {Store Exn} _.

(** An object of a subclass of [abstract class TransportCreator]: its
    implementation of the abstract [factoryMethod], and its own
    [someOperation] when its class overrides the inherited one. *)
Record TransportCreator (Store Exn : Type) : Type := {
  factoryMethod : Eff Store Exn (Transport Store Exn);
  own_someOperation : option (Eff Store Exn string)
}.
Arguments factoryMethod {Store Exn} _.
Arguments own_someOperation {Store Exn} _.

Section Classes.
Context {Store Exn : Type}.

(** The body of [someOperation] in [TransportCreator]. *)
Definition TransportCreator_someOperation (this : TransportCreator Store Exn) :
  Eff Store Exn string :=
  transport <- factoryMethod this ;;
  s <- operation transport ;;
  ret ("TransportCreator: The same creator's code has just worked with " ++ s).

(** The call [this.someOperation()]: the method of the object's own class
    when it declares one, the inherited body otherwise. *)
Definition someOperation (this : TransportCreator Store Exn) :
  Eff Store Exn string :=
  match own_someOperation this with
  | Some method => method
  | None => TransportCreator_someOperation this
  end.

(** [new Truck()] and [new Ship()] *)
Definition Truck : Transport Store Exn :=
  {| operation := ret "{Transport by land}" |}.

Definition Ship : Transport Store Exn :=
  {| operation := ret "{Transport by sea}" |}.

(** [new TruckCreator()] and [new ShipCreator()]: both classes declare
    [factoryMethod] and nothing else. *)
Definition TruckCreator : TransportCreator Store Exn :=
  {| factoryMethod := ret Truck; own_someOperation := None |}.

Definition ShipCreator : TransportCreator Store Exn :=
  {| factoryMethod := ret Ship; own_someOperation := None |}.

Definition creatorOf (v : CreatorVariant) : TransportCreator Store Exn :=
  match v with
  | TruckVariant => TruckCreator
  | ShipVariant => ShipCreator
  end.

(** [function clientCode(creator: TransportCreator)] *)
Definition clientCode (creator : TransportCreator Store Exn) :
  Eff Store Exn unit :=
  console_log
    "Client: I'm not aware of the creator's class, but it still works." ;;
  s <- someOperation creator ;;
  console_log s.

(** The statements at the top level of the file, in order. *)
Definition main : Eff Store Exn unit :=
  console_log "App: Launched with the TruckCreator." ;;
  clientCode TruckCreator ;;
  console_log "" ;;
  console_log "App: Launched with the ShipCreator." ;;
  clientCode ShipCreator.

(** The product a non-overriding creator describes: [factoryMethod] and
    then [operation] on what it yields. *)
Definition productDescription (this : TransportCreator Store Exn) :
  Eff Store Exn string :=
  transport <- factoryMethod this ;;
  operation transport.

(** The specification's [describe], as a call on a fresh creator. *)
Definition describe (v : CreatorVariant) : Eff Store Exn string :=
  someOperation (creatorOf v).

(** The strings a run printed. *)
Definition output {A : Type} (r : Completion Exn A * Store * list string) :
  list string := snd r.

End Classes.

(** *** Further subclasses the types of the file admit

    None of them is in the file; each is a class that type-checks against
    it. *)

(** A subclass that overrides [someOperation]. *)
Definition Overriding {Store Exn : Type} : TransportCreator Store Exn :=
  {| factoryMethod := ret Truck;
     own_someOperation := Some (ret "overridden") |}.

(** A subclass whose factory method throws. *)
Definition Throwing {Store : Type} : TransportCreator Store string :=
  {| factoryMethod := throw "no transport";
     own_someOperation := None |}.

(** A subclass whose product describes itself on two lines. *)
Definition TwoLine {Store Exn : Type} : TransportCreator Store Exn :=
  {| factoryMethod :=
       ret {| operation := ret ("{Transport by" ++ String LF "rail}") |};
     own_someOperation := None |}.

(** A subclass whose factory method announces itself. *)
Definition Printing {Store Exn : Type} : TransportCreator Store Exn :=
  {| factoryMethod := console_log "making a truck" ;; ret Truck;
     own_someOperation := None |}.

(** A subclass that counts its products in the state of the program and
    numbers them apart: the first is a truck, the later ones are ships. *)
Definition Counting {Exn : Type} : TransportCreator nat Exn :=
  {| factoryMethod :=
       fun n => (Returned (if Nat.eqb n 0 then Truck else Ship), S n, []);
     own_someOperation := None |}.

End Obj.

(** * Properties *)

(** ** The console *)

Section ConsoleLaws.
Context {A B C : Type}.

Lemma bind_ret_l (a : A) (k : A -> Console B) (out : Stdout) :
  bind (ret a) k out = k a out.
Proof. reflexivity. Qed.

Lemma bind_ret_r (c : Console A) (out : Stdout) :
  bind c ret out = c out.
Proof. unfold bind, ret. destruct (c out); reflexivity. Qed.

Lemma bind_assoc (c : Console A) (k : A -> Console B) (h : B -> Console C)
      (out : Stdout) :
  bind (bind c k) h out = bind c (fun a => bind (k a) h) out.
Proof. unfold bind. destruct (c out); reflexivity. Qed.
End ConsoleLaws.

Lemma console_log_then {A : Type} (s : string) (k : Console A) (out : Stdout) :
  (console_log s ;; k) out = k (out ++ [s])%list.
Proof. reflexivity. Qed.

Lemma string_app_assoc (a b c : string) :
  (a ++ b) ++ c = a ++ (b ++ c).
Proof. induction a as [|x a IH]; simpl; [|rewrite IH]; reflexivity. Qed.

Lemma render_app (out1 out2 : Stdout) :
  render (out1 ++ out2)%list = render out1 ++ render out2.
Proof.
  induction out1 as [|s out1 IH]; simpl.
  - reflexivity.
  - rewrite IH, string_app_assoc. reflexivity.
Qed.

(** A string without line feed, followed by a line feed, is one line. *)
Lemma lines_one (l rest : string) :
  has_LF l = false -> lines (l ++ String LF rest) = l :: lines rest.
Proof.
  induction l as [|c l IH]; simpl; intros H.
  - reflexivity.
  - apply orb_false_iff in H as [Hc Hl].
    rewrite Hc, (IH Hl). reflexivity.
Qed.

(** Cutting the rendered output into lines gives back the strings printed,
    as long as none of them holds a line feed. *)
Lemma lines_render (out : Stdout) :
  forallb (fun s => negb (has_LF s)) out = true -> lines (render out) = out.
Proof.
  induction out as [|s out IH]; simpl; intros H.
  - reflexivity.
  - apply andb_true_iff in H as [Hs Hout].
    apply negb_true_iff in Hs.
    rewrite (lines_one _ _ Hs), (IH Hout). reflexivity.
Qed.

(** ** Substrings *)

Lemma startsWith_iff (s p : string) :
  startsWith s p = true <-> exists post, s = p ++ post.
Proof.
  revert s; induction p as [|a p IH]; intros s; simpl.
  - split; [intros _; exists s; reflexivity | reflexivity].
  - destruct s as [|b s].
    + split; [discriminate | intros [post H]; discriminate].
    + rewrite andb_true_iff, Ascii.eqb_eq, IH. split.
      * intros [-> [post ->]]. exists post. reflexivity.
      * intros [post H]. injection H as -> ->. eauto.
Qed.

Lemma includes_iff (s p : string) :
  includes s p = true <-> Substring p s.
Proof.
  unfold Substring. induction s as [|b s IH].
  - simpl. rewrite orb_false_r, startsWith_iff. split.
    + intros [post H]. exists "", post. exact H.
    + intros [[|c pre] [post H]].
      * exists post. exact H.
      * discriminate.
  - cbn [includes]. rewrite orb_true_iff, startsWith_iff, IH. split.
    + intros [[post H] | [pre [post H]]].
      * exists "", post. exact H.
      * exists (String b pre), post. simpl. rewrite H. reflexivity.
    + intros [[|c pre] [post H]].
      * left. exists post. exact H.
      * right. simpl in H. injection H as _ H. exists pre, post. exact H.
Qed.

Lemma includes_false_iff (s p : string) :
  includes s p = false <-> ~ Substring p s.
Proof.
  rewrite <- includes_iff. destruct (includes s p); split; intros H;
    try reflexivity; try discriminate; try (intros E; discriminate).
  exfalso. apply H. reflexivity.
Qed.

(** ** Products and creators *)

Lemma Truck_neq_Ship : Truck <> Ship.
Proof. intros E. apply (f_equal (fun t => operation t tt)) in E. discriminate E. Qed.

(** C1: on the truck creator [someOperation], which is [describe] at the
    Truck variant, returns exactly "TransportCreator: The same creator's code
    has just worked with {Transport by land}"; on the ship creator it returns
    exactly the same sentence ending in "{Transport by sea}". *)
Theorem describe_exact :
  (describe TruckVariant =
     "TransportCreator: The same creator's code has just worked with {Transport by land}"
   /\ someOperation TruckCreator tt =
     "TransportCreator: The same creator's code has just worked with {Transport by land}")
  /\
  (describe ShipVariant =
     "TransportCreator: The same creator's code has just worked with {Transport by sea}"
   /\ someOperation ShipCreator tt =
     "TransportCreator: The same creator's code has just worked with {Transport by sea}").
Proof. repeat split. Qed.

(** C3, as stated, fails: the strings the products return are not the bare
    texts "Transport by land" and "Transport by sea". *)
Lemma operation_not_bare_text :
  operation Truck tt <> "Transport by land"
  /\ operation Ship tt <> "Transport by sea".
Proof. split; discriminate. Qed.

(** C3, amended: every call of Truck's [operation] returns the fixed string
    "{Transport by land}" and every call of Ship's returns
    "{Transport by sea}": the descriptive text inside curly braces. *)
Theorem operation_fixed_string (u : unit) :
  (operation Truck u = "{Transport by land}"
   /\ operation Ship u = "{Transport by sea}")
  /\
  (operation Truck u = "{" ++ variantText TruckVariant ++ "}"
   /\ operation Ship u = "{" ++ variantText ShipVariant ++ "}").
Proof. repeat split. Qed.

(** C4: every call of TruckCreator's [factoryMethod] yields a Truck and every
    call of ShipCreator's yields a Ship; the two products differ; the method
    takes no argument that could select another product. *)
Theorem factoryMethod_matching (u : unit) :
  (factoryMethod TruckCreator u = Truck /\ factoryMethod ShipCreator u = Ship)
  /\ (forall v : CreatorVariant, factoryMethod (creatorOf v) u = productOf v)
  /\ Truck <> Ship.
Proof.
  split; [split; reflexivity|]. split.
  - intros []; reflexivity.
  - exact Truck_neq_Ship.
Qed.

(** C5: the string [describe] returns for a variant holds the text of that
    variant and does not hold the text of the other one. *)
Theorem describe_substring (v : CreatorVariant) :
  (Substring (variantText v) (describe v)
   /\ ~ Substring (variantText (otherVariant v)) (describe v))
  /\
  (includes (describe v) (variantText v) = true
   /\ includes (describe v) (variantText (otherVariant v)) = false).
Proof.
  assert (Hb : includes (describe v) (variantText v) = true
               /\ includes (describe v) (variantText (otherVariant v)) = false)
    by (destruct v; split; vm_compute; reflexivity).
  split; [|exact Hb]. destruct Hb as [Hin Hout]. split.
  - apply includes_iff. exact Hin.
  - apply includes_false_iff. exact Hout.
Qed.

(** ** The client *)

(** [clientCode] appends its two strings to whatever was printed before. *)
Lemma clientCode_run (creator : TransportCreator) (out : Stdout) :
  clientCode creator out =
    (tt, (out ++ [client_line; someOperation creator tt])%list).
Proof.
  unfold clientCode, bind, console_log, client_line.
  rewrite <- app_assoc. reflexivity.
Qed.


(** ** The application *)

Lemma main_run (out : Stdout) :
  main out =
    (tt, (out ++ [truck_announcement; client_line; describe TruckVariant;
                  ""; ship_announcement; client_line; describe ShipVariant])%list).
Proof.
  unfold main. rewrite console_log_then.
  unfold bind at 1. rewrite clientCode_run.
  rewrite !console_log_then, clientCode_run.
  rewrite <- !app_assoc. reflexivity.
Qed.

(** C8: the application prints seven lines and no more, in this order: the
    truck announcement, the client line, the truck result, an empty line, the
    ship announcement, the client line, the ship result; this is the list of
    strings printed and also the list of lines of the text written. *)
Theorem main_prints_seven_lines :
  main [] =
    (tt,
     ["App: Launched with the TruckCreator.";
      "Client: I'm not aware of the creator's class, but it still works.";
      "TransportCreator: The same creator's code has just worked with {Transport by land}";
      "";
      "App: Launched with the ShipCreator.";
      "Client: I'm not aware of the creator's class, but it still works.";
      "TransportCreator: The same creator's code has just worked with {Transport by sea}"])
  /\ lines (render (printed main)) =
       [truck_announcement; client_line; describe TruckVariant;
        ""; ship_announcement; client_line; describe ShipVariant]
  /\ length (lines (render (printed main))) = 7.
Proof.
  split; [apply (main_run [])|].
  assert (E : lines (render (printed main)) = printed main)
    by (apply lines_render; vm_compute; reflexivity).
  rewrite E. unfold printed. rewrite main_run. split; reflexivity.
Qed.

(** C2, as stated, fails: the application does not print four lines, counted
    as strings printed or as lines of the text written. *)
Lemma main_not_four_lines :
  length (printed main) <> 4
  /\ length (lines (render (printed main))) <> 4
  /\ printed main <>
       [truck_announcement; describe TruckVariant;
        ship_announcement; describe ShipVariant].
Proof.
  unfold printed. rewrite main_run. cbn [snd app].
  split; [|split]; vm_compute; discriminate.
Qed.


(** C2, amended: the application prints seven lines; the truck announcement,
    the truck result, the ship announcement and the ship result are the
    first, third, fifth and seventh of them, in this order; the second and
    the sixth are the client line and the fourth is empty. *)
Theorem main_four_named_lines :
  printed main =
    ["App: Launched with the TruckCreator.";
     "Client: I'm not aware of the creator's class, but it still works.";
     "TransportCreator: The same creator's code has just worked with {Transport by land}";
     "";
     "App: Launched with the ShipCreator.";
     "Client: I'm not aware of the creator's class, but it still works.";
     "TransportCreator: The same creator's code has just worked with {Transport by sea}"]
  /\ lines (render (printed main)) = printed main
  /\ length (lines (render (printed main))) = 7
  /\ (nth_error (lines (render (printed main))) 0 = Some truck_announcement
      /\ nth_error (lines (render (printed main))) 1 = Some client_line
      /\ nth_error (lines (render (printed main))) 2 = Some (describe TruckVariant)
      /\ nth_error (lines (render (printed main))) 3 = Some ""
      /\ nth_error (lines (render (printed main))) 4 = Some ship_announcement
      /\ nth_error (lines (render (printed main))) 5 = Some client_line
      /\ nth_error (lines (render (printed main))) 6 = Some (describe ShipVariant)).
Proof.
  assert (E : lines (render (printed main)) = printed main)
    by (apply lines_render; vm_compute; reflexivity).
  rewrite E. unfold printed. rewrite main_run. cbn [snd app].
  repeat split.
Qed.

(** ** Lines of a text *)

(** A text that ends in a line feed has at least one line. *)
Lemma lines_terminated_length (s rest : string) :
  1 <= length (lines (s ++ String LF rest)).
Proof.
  induction s as [|c s IH]; simpl.
  - lia.
  - destruct (Ascii.eqb c LF); simpl; [lia|].
    destruct (lines (s ++ String LF rest)); simpl in *; lia.
Qed.

(** A string that holds a line feed spreads over two lines or more. *)
Lemma lines_has_LF_length (s rest : string) :
  has_LF s = true -> 2 <= length (lines (s ++ String LF rest)).
Proof.
  induction s as [|c s IH]; simpl; intros H.
  - discriminate.
  - destruct (Ascii.eqb c LF); simpl in *.
    + pose proof (lines_terminated_length s rest). lia.
    + specialize (IH H).
      destruct (lines (s ++ String LF rest)); simpl in *; lia.
Qed.

(** * Open classes: overriding, exceptions, printing and state *)

Section ObjRuns.
Context {Store Exn : Type}.

Lemma Obj_bind_Returned {A B : Type}
      (c : Obj.Eff Store Exn A) (k : A -> Obj.Eff Store Exn B)
      (st st1 st2 : Store) (a : A) (r : Obj.Completion Exn B)
      (out1 out2 : list string) :
  c st = (Obj.Returned a, st1, out1) ->
  k a st1 = (r, st2, out2) ->
  Obj.bind c k st = (r, st2, (out1 ++ out2)%list).
Proof. intros Hc Hk. unfold Obj.bind. rewrite Hc, Hk. reflexivity. Qed.

Lemma Obj_bind_Thrown {A B : Type}
      (c : Obj.Eff Store Exn A) (k : A -> Obj.Eff Store Exn B)
      (st st1 : Store) (e : Exn) (out1 : list string) :
  c st = (Obj.Thrown e, st1, out1) ->
  Obj.bind c k st = (Obj.Thrown e, st1, out1).
Proof. intros Hc. unfold Obj.bind. rewrite Hc. reflexivity. Qed.

(** A creator that does not override [someOperation] runs the inherited
    body. *)
Lemma someOperation_inherited (this : Obj.TransportCreator Store Exn) :
  Obj.own_someOperation this = None ->
  Obj.someOperation this = Obj.TransportCreator_someOperation this.
Proof. intros H. unfold Obj.someOperation. rewrite H. reflexivity. Qed.

(** The inherited body puts the prefix before the description of the
    product and changes nothing else of that run. *)
Lemma TransportCreator_someOperation_run
      (this : Obj.TransportCreator Store Exn) (st : Store) :
  Obj.TransportCreator_someOperation this st =
    match Obj.productDescription this st with
    | (Obj.Returned s, st', out) =>
        (Obj.Returned
           ("TransportCreator: The same creator's code has just worked with "
              ++ s), st', out)
    | (Obj.Thrown e, st', out) => (Obj.Thrown e, st', out)
    end.
Proof.
  unfold Obj.TransportCreator_someOperation, Obj.productDescription, Obj.bind.
  destruct (Obj.factoryMethod this st) as [[[t|e] st1] out1]; [|reflexivity].
  destruct (Obj.operation t st1) as [[[s|e] st2] out2]; [|reflexivity].
  cbn. rewrite app_nil_r. reflexivity.
Qed.

(** What [clientCode] does, by the way the creator's [someOperation] ends. *)
Lemma Obj_clientCode_run (creator : Obj.TransportCreator Store Exn) (st : Store) :
  Obj.clientCode creator st =
    match Obj.someOperation creator st with
    | (Obj.Returned s, st', out) =>
        (Obj.Returned tt, st', client_line :: (out ++ [s])%list)
    | (Obj.Thrown e, st', out) => (Obj.Thrown e, st', client_line :: out)
    end.
Proof.
  unfold Obj.clientCode, Obj.bind, Obj.console_log.
  destruct (Obj.someOperation creator st) as [[[s|e] st'] out]; reflexivity.
Qed.

End ObjRuns.

(** ** The template under inheritance and overriding *)

(** C9, as stated, fails: a subclass may override [someOperation]; the
    string it then returns is not the prefix followed by the description of
    the product its factory method yields. *)
Lemma overriding_creator_not_template :
  Obj.someOperation (@Obj.Overriding unit string) tt =
    (Obj.Returned "overridden", tt, [])
  /\ Obj.productDescription (@Obj.Overriding unit string) tt =
       (Obj.Returned "{Transport by land}", tt, [])
  /\ "overridden" <>
       "TransportCreator: The same creator's code has just worked with "
         ++ "{Transport by land}".
Proof. split; [reflexivity|]. split; [reflexivity|]. discriminate. Qed.

Section Template.
Context {Store Exn : Type}.

(** C9, amended: for every subclass that does not override [someOperation],
    whatever its [factoryMethod]: when the factory method returns a product
    and [operation] on that product returns a string, [someOperation]
    returns the fixed prefix followed by that string, after the effects of
    those two calls and no other. *)
Theorem someOperation_template_inherited
        (this : Obj.TransportCreator Store Exn)
        (st st1 st2 : Store) (transport : Obj.Transport Store Exn)
        (s : string) (out1 out2 : list string) :
  Obj.own_someOperation this = None ->
  Obj.factoryMethod this st = (Obj.Returned transport, st1, out1) ->
  Obj.operation transport st1 = (Obj.Returned s, st2, out2) ->
  Obj.someOperation this st =
    (Obj.Returned
       ("TransportCreator: The same creator's code has just worked with " ++ s),
     st2, (out1 ++ out2)%list).
Proof.
  intros Hown Hfm Hop.
  rewrite (someOperation_inherited this Hown).
  unfold Obj.TransportCreator_someOperation.
  apply (Obj_bind_Returned _ _ st st1 st2 transport _ out1 out2 Hfm).
  rewrite <- (app_nil_r out2).
  apply (Obj_bind_Returned _ _ st1 st2 st2 s _ out2 [] Hop).
  reflexivity.
Qed.

(** X5: an exception in the factory method or in the product's
    [operation] leaves the inherited [someOperation] as that same
    exception, with the state and the output reached when it was thrown;
    after a throwing factory method no product is used. *)
Theorem someOperation_inherited_throws
        (this : Obj.TransportCreator Store Exn) (st : Store) :
  Obj.own_someOperation this = None ->
  (forall (e : Exn) (st1 : Store) (out1 : list string),
      Obj.factoryMethod this st = (Obj.Thrown e, st1, out1) ->
      Obj.someOperation this st = (Obj.Thrown e, st1, out1))
  /\
  (forall (transport : Obj.Transport Store Exn) (e : Exn) (st1 st2 : Store)
          (out1 out2 : list string),
      Obj.factoryMethod this st = (Obj.Returned transport, st1, out1) ->
      Obj.operation transport st1 = (Obj.Thrown e, st2, out2) ->
      Obj.someOperation this st = (Obj.Thrown e, st2, (out1 ++ out2)%list)).
Proof.
  intros Hown. rewrite (someOperation_inherited this Hown).
  unfold Obj.TransportCreator_someOperation. split.
  - intros e st1 out1 Hfm. apply Obj_bind_Thrown. exact Hfm.
  - intros transport e st1 st2 out1 out2 Hfm Hop.
    apply (Obj_bind_Returned _ _ st st1 st2 transport _ out1 out2 Hfm).
    apply Obj_bind_Thrown. exact Hop.
Qed.

(** X6: for two creators that do not override [someOperation], the runs of
    [someOperation] agree (result or exception, state, output) exactly when
    the runs that produce and describe their products agree: the template
    adds the prefix and loses nothing. *)
Theorem someOperation_inherited_eq_iff
        (c1 c2 : Obj.TransportCreator Store Exn) (st1 st2 : Store) :
  Obj.own_someOperation c1 = None ->
  Obj.own_someOperation c2 = None ->
  (Obj.someOperation c1 st1 = Obj.someOperation c2 st2
   <-> Obj.productDescription c1 st1 = Obj.productDescription c2 st2).
Proof.
  intros H1 H2.
  rewrite (someOperation_inherited c1 H1), (someOperation_inherited c2 H2).
  rewrite !TransportCreator_someOperation_run.
  destruct (Obj.productDescription c1 st1) as [[[s1|e1] st1'] o1];
    destruct (Obj.productDescription c2 st2) as [[[s2|e2] st2'] o2];
    split; intros H; try discriminate H.
  - injection H as -> -> ->. reflexivity.
  - injection H as -> -> ->. reflexivity.
  - exact H.
  - exact H.
Qed.

End Template.

Lemma someOperation_template_inherited_witness :
  Obj.someOperation (@Obj.TruckCreator nat string) 7 =
    (Obj.Returned
       ("TransportCreator: The same creator's code has just worked with "
          ++ "{Transport by land}"), 7, ([] ++ [])%list).
Proof.
  apply (someOperation_template_inherited
           Obj.TruckCreator 7 7 7 Obj.Truck "{Transport by land}" [] []);
    reflexivity.
Defined.

Lemma someOperation_inherited_throws_witness :
  Obj.someOperation (@Obj.Throwing unit) tt =
    (Obj.Thrown "no transport", tt, []).
Proof.
  apply (proj1 (someOperation_inherited_throws Obj.Throwing tt eq_refl)).
  reflexivity.
Defined.

(** The counting creator on its first product against the truck creator. *)
Lemma someOperation_inherited_eq_iff_witness :
  Obj.someOperation (@Obj.Counting string) 0 =
    Obj.someOperation (@Obj.TruckCreator nat string) 0
  <-> Obj.productDescription (@Obj.Counting string) 0 =
        Obj.productDescription (@Obj.TruckCreator nat string) 0.
Proof.
  apply (someOperation_inherited_eq_iff Obj.Counting Obj.TruckCreator 0 0);
    reflexivity.
Defined.

(** ** The client under dispatch *)

(** C10, as stated, fails: with a creator whose factory method throws the
    client prints one line, with one whose factory method prints it prints
    three, and with a product described on two lines the text written has
    three lines. *)
Lemma clientCode_not_always_two_lines :
  Obj.clientCode (@Obj.Throwing unit) tt =
    (Obj.Thrown "no transport", tt,
     ["Client: I'm not aware of the creator's class, but it still works."])
  /\ length (Obj.output (Obj.clientCode (@Obj.Printing unit string) tt)) = 3
  /\ length (Obj.output (Obj.clientCode (@Obj.TwoLine unit string) tt)) = 2
  /\ length (lines (render
               (Obj.output (Obj.clientCode (@Obj.TwoLine unit string) tt)))) = 3.
Proof. repeat split. Qed.

Section Client.
Context {Store Exn : Type}.

(** C10, amended: for every creator whose [someOperation], called through
    the object, returns a string without line feed and prints nothing
    itself, [clientCode] prints two lines, the fixed client line and then
    that string, and returns no value; it reaches the creator through that
    one call only, so a creator with the same run of [someOperation] gets
    the same run of [clientCode]. *)
Theorem clientCode_prints_two_lines
        (creator : Obj.TransportCreator Store Exn) (st st' : Store) (s : string) :
  Obj.someOperation creator st = (Obj.Returned s, st', []) ->
  has_LF s = false ->
  Obj.clientCode creator st =
    (Obj.Returned tt, st',
     ["Client: I'm not aware of the creator's class, but it still works."; s])
  /\ lines (render (Obj.output (Obj.clientCode creator st))) =
       ["Client: I'm not aware of the creator's class, but it still works."; s]
  /\ (forall other : Obj.TransportCreator Store Exn,
        Obj.someOperation other st = Obj.someOperation creator st ->
        Obj.clientCode other st = Obj.clientCode creator st).
Proof.
  intros Hrun HLF.
  assert (E : Obj.clientCode creator st =
              (Obj.Returned tt, st', [client_line; s]))
    by (rewrite Obj_clientCode_run, Hrun; reflexivity).
  split; [exact E|]. split.
  - rewrite E. apply lines_render. cbn [forallb]. rewrite HLF. reflexivity.
  - intros other Hother. rewrite !Obj_clientCode_run, Hother. reflexivity.
Qed.

(** X2: when the creator's [someOperation] throws, [clientCode] has printed
    the client line and what [someOperation] printed before throwing, prints
    no further line and ends with the same exception and state: it catches
    nothing. *)
Theorem clientCode_propagates_exception
        (creator : Obj.TransportCreator Store Exn) (st st' : Store)
        (e : Exn) (out : list string) :
  Obj.someOperation creator st = (Obj.Thrown e, st', out) ->
  Obj.clientCode creator st =
    (Obj.Thrown e, st',
     "Client: I'm not aware of the creator's class, but it still works." :: out).
Proof. intros Hrun. rewrite Obj_clientCode_run, Hrun. reflexivity. Qed.


(** X4: when the creator's [someOperation] returns a string and prints
    nothing itself, the text [clientCode] writes has two lines if the string
    holds no line feed and three or more if it does. *)
Theorem clientCode_text_lines
        (creator : Obj.TransportCreator Store Exn) (st st' : Store) (s : string) :
  Obj.someOperation creator st = (Obj.Returned s, st', []) ->
  (has_LF s = false ->
   lines (render (Obj.output (Obj.clientCode creator st))) = [client_line; s])
  /\
  (has_LF s = true ->
   3 <= length (lines (render (Obj.output (Obj.clientCode creator st))))).
Proof.
  intros Hrun. rewrite Obj_clientCode_run, Hrun.
  cbn [Obj.output snd app render].
  assert (Hc : has_LF client_line = false) by (vm_compute; reflexivity).
  rewrite (lines_one _ _ Hc). split; intros HLF.
  - rewrite (lines_one _ _ HLF). reflexivity.
  - pose proof (lines_has_LF_length s "" HLF). cbn [length]. lia.
Qed.

(** ** The creators of the file *)

(** C6: on a truck creator or a ship creator, every invocation of
    [describe], from whatever state earlier calls have left, returns the
    same string, leaves the state as it was and prints nothing; two
    invocations in a row return equal strings.  The objects of these classes
    have no fields, so two instances of a class are the same methods. *)
Theorem describe_stateless (v : CreatorVariant) (st1 st2 : Store) :
  (@Obj.describe Store Exn v st1 = (Obj.Returned (describe v), st1, [])
   /\ @Obj.describe Store Exn v st2 = (Obj.Returned (describe v), st2, []))
  /\ Obj.bind (Obj.describe v)
       (fun s1 => Obj.bind (Obj.describe v)
          (fun s2 => Obj.ret (s1, s2, String.eqb s1 s2))) st1 =
     (@Obj.Returned Exn _ (describe v, describe v, true), st1, []).
Proof. destruct v; repeat split. Qed.

(** X1: with calls through the objects and exceptions in the model, the
    application ends normally from every state, leaves the state as it was
    and prints the seven lines; each call of [clientCode] in it ends normally
    with its two lines. *)
Theorem main_completes (st : Store) :
  @Obj.main Store Exn st =
    (Obj.Returned tt, st,
     ["App: Launched with the TruckCreator.";
      "Client: I'm not aware of the creator's class, but it still works.";
      "TransportCreator: The same creator's code has just worked with {Transport by land}";
      "";
      "App: Launched with the ShipCreator.";
      "Client: I'm not aware of the creator's class, but it still works.";
      "TransportCreator: The same creator's code has just worked with {Transport by sea}"])
  /\ Obj.output (@Obj.main Store Exn st) = printed main
  /\ (forall v : CreatorVariant,
        @Obj.clientCode Store Exn (Obj.creatorOf v) st =
          (Obj.Returned tt, st, printed (clientCode (creatorOf v)))).
Proof.
  split; [reflexivity|]. split; [reflexivity|]. intros []; reflexivity.
Qed.

End Client.

Lemma clientCode_prints_two_lines_witness :
  Obj.clientCode (@Obj.ShipCreator nat string) 3 =
    (Obj.Returned tt, 3,
     ["Client: I'm not aware of the creator's class, but it still works.";
      "TransportCreator: The same creator's code has just worked with {Transport by sea}"]).
Proof.
  apply (proj1 (clientCode_prints_two_lines Obj.ShipCreator 3 3 _ eq_refl eq_refl)).
Defined.

Lemma clientCode_propagates_exception_witness :
  Obj.clientCode (@Obj.Throwing nat) 5 =
    (Obj.Thrown "no transport", 5,
     ["Client: I'm not aware of the creator's class, but it still works."]).
Proof.
  apply (clientCode_propagates_exception Obj.Throwing 5 5 "no transport" []).
  reflexivity.
Defined.

Lemma clientCode_text_lines_witness :
  3 <= length (lines (render
         (Obj.output (Obj.clientCode (@Obj.TwoLine unit string) tt)))).
Proof.
  apply (proj2 (clientCode_text_lines Obj.TwoLine tt tt _ eq_refl)).
  reflexivity.
Defined.

(** The model has state in which [describe_stateless] could fail: on the
    counting creator two invocations in a row return different strings. *)
Lemma Counting_not_stateless :
  Obj.bind (Obj.someOperation (@Obj.Counting string))
    (fun s1 => Obj.bind (Obj.someOperation Obj.Counting)
       (fun s2 => Obj.ret (String.eqb s1 s2))) 0 =
  (Obj.Returned false, 2, []).
Proof. reflexivity. Qed.
